(** * Feature definitions of the fitness feature repository

    A shallow embedding of
    [src/features/fitness_features/feature_repo/feature_definitions.py]:
    the objects the module constructs, the module body as a computation
    over the module namespace, and the properties of what it binds. *)

From Stdlib Require Import ZArith String List Bool Lia.
From stdpp Require Import base option list gmap strings.
Import ListNotations.

Local Open Scope string_scope.
Local Open Scope Z_scope.

(** ** Objects of the framework's declarative API *)

(** Modelled from the spec: the [Entity] class lives in the imported [feast]
    package; its fields are the keyword arguments the module passes
    (name, join_keys, description), as in the data model. *)
Module Entity.
Record t : Type := mk {
  name : string;
  join_keys : list string;
  description : string
}.
End Entity.

(** Modelled from the spec: the [FileSource] class lives in the imported
    [feast] package; [created_timestamp_column] is the optional keyword the
    module leaves out ([None] when it is not passed). *)
Module FileSource.
Record t : Type := mk {
  path : string;
  timestamp_field : string;
  created_timestamp_column : option string
}.
End FileSource.

(** The three value types the module imports from [feast.types]. *)
Inductive dtype : Type := Float32 | Float64 | Int64.

(** Modelled from the spec: [Field(name=..., dtype=...)], as written in the
    commented example structures of the module. *)
Module Field.
Record t : Type := mk {
  name : string;
  dtype_of : dtype
}.
End Field.

(** Modelled from the spec: the [FeatureView] class lives in the imported
    [feast] package; the fields are the key parameters listed in the
    module's comments (name, entities, ttl, schema, online, source, tags),
    with [ttl] a [timedelta] counted in seconds. *)
Module FeatureView.
Record t : Type := mk {
  name : string;
  entities : list Entity.t;
  ttl : Z;
  schema : list Field.t;
  online : bool;
  source : FileSource.t;
  tags : list (string * string)
}.
End FeatureView.

(** ** The module namespace *)

(** What a top-level name of the module can be bound to: a name brought in
    by [from m import a], an object built by one of the framework's
    constructors, or a function the module itself defines with [def]. *)
Inductive pyobj : Type :=
| Imported (module_name attr : string)
| EntityObj (e : Entity.t)
| FileSourceObj (s : FileSource.t)
| FeatureViewObj (v : FeatureView.t)
| FunctionObj (qualname : string).

(** The registry the framework keeps per process; [feast apply] fills it. *)
Record Registry : Type := mkRegistry {
  reg_entities : gmap string Entity.t;
  reg_sources : list FileSource.t;
  reg_feature_views : gmap string FeatureView.t
}.

(** What the surroundings of the interpreter offer to a running module. *)
Record World : Type := mkWorld {
  environ : gmap string string;
  clock : Z;
  files : gmap string (list string)
}.

(** Observable actions of module-level code. *)
Inductive effect : Type :=
| EvImport (module_name : string) (names : list string)
| EvConstruct (cls : string)
| EvOpenFile (p : string)
| EvGetEnv (var : string)
| EvClock
| EvApply (objs : list pyobj).

Inductive PyError : Type :=
| NameError (n : string)
| TypeError (what : string)
| FileNotFoundError (p : string).

Record ModState : Type := mkModState {
  globals : gmap string pyobj;
  trace : list effect;
  registry : Registry
}.

(** ** A state-and-exception monad for module-level code *)

Definition M (A : Type) : Type := World -> ModState -> (PyError + A) * ModState.

Definition ret {A} (a : A) : M A := fun _ s => (inr a, s).

Definition bind {A B} (m : M A) (k : A -> M B) : M B :=
  fun w s =>
    match m w s with
    | (inl e, s') => (inl e, s')
    | (inr a, s') => k a w s'
    end.

Definition raise {A} (e : PyError) : M A := fun _ s => (inl e, s).

#[export] Instance M_ret : MRet M := @ret.
#[export] Instance M_bind : MBind M := fun A B k m => bind m k.

Definition emit (ev : effect) : M unit :=
  fun _ s => (inr tt, mkModState (globals s) (trace s ++ [ev]) (registry s)).

(** [x = v] at top level. *)
Definition store_global (x : string) (v : pyobj) : M unit :=
  fun _ s => (inr tt, mkModState (<[x := v]> (globals s)) (trace s) (registry s)).

(** Reading a top-level name; an unbound name raises [NameError]. *)
Definition load_global (x : string) : M pyobj :=
  fun _ s =>
    match globals s !! x with
    | Some v => (inr v, s)
    | None => (inl (NameError x), s)
    end.

Fixpoint bind_imports (m : string) (names : list string) : M unit :=
  match names with
  | [] => ret tt
  | n :: rest => store_global n (Imported m n) ;; bind_imports m rest
  end.

(** [from m import n1, n2, ...] *)
Definition import_from (m : string) (names : list string) : M unit :=
  emit (EvImport m names) ;; bind_imports m names.

(** A call [cls(...)] of a class imported from [feast]: the callee is looked
    up in the namespace first, as Python does. *)
Definition construct (cls : string) (obj : pyobj) : M pyobj :=
  callee ← load_global cls ;
  match callee with
  | Imported "feast" c =>
      if String.eqb c cls then emit (EvConstruct cls) ;; ret obj
      else raise (TypeError cls)
  | _ => raise (TypeError cls)
  end.

(** The remaining operations a module could perform; the module under
    study uses none of them. *)
Definition ask : M World := fun w s => (inr w, s).

Definition open_read (p : string) : M (list string) :=
  emit (EvOpenFile p) ;;
  w ← ask ;
  match files w !! p with
  | Some lines => ret lines
  | None => raise (FileNotFoundError p)
  end.

Definition getenv (var : string) : M (option string) :=
  emit (EvGetEnv var) ;; w ← ask ; ret (environ w !! var).

Definition now : M Z :=
  emit EvClock ;; w ← ask ; ret (clock w).

Definition update_registry (f : Registry -> Registry) : M unit :=
  fun _ s => (inr tt, mkModState (globals s) (trace s) (f (registry s))).

Section Apply.
(** How the framework commits a batch of objects to its registry; this
    is the framework's code, so it stays a parameter. *)
Variable commit : list pyobj -> Registry -> Registry.

(** The registration call ([feast apply] on a list of objects). *)
Definition apply_objects (objs : list pyobj) : M unit :=
  emit (EvApply objs) ;; update_registry (commit objs).
End Apply.

(** ** The module body *)

Definition record_value : Entity.t :=
  Entity.mk "record" ["record_id"]
    "Each row is one record, which is a related cluster of fitness device features".

Definition fitness_source_value : FileSource.t :=
  FileSource.mk "../../../data/full_data_cleaned.csv"
                "synthetic_event_timestamp"
                None.

(** The statements of [feature_definitions.py], in order.  Everything
    between the two assignments and after them is comment text. *)
Definition feature_definitions : M unit :=
  import_from "datetime" ["timedelta"] ;;
  import_from "feast" ["Entity"; "FeatureView"; "Field"; "FileSource"] ;;
  import_from "feast.types" ["Float32"; "Float64"; "Int64"] ;;
  record ← construct "Entity" (EntityObj record_value) ;
  store_global "record" record ;;
  fitness_source ← construct "FileSource" (FileSourceObj fitness_source_value) ;
  store_global "fitness_source" fitness_source.

(** Two variants the module is not: one that reads the dataset while it
    is being imported, one that registers its objects itself.  They show
    what the effect trace and the registry record in such cases. *)
Definition feature_definitions_reading_csv : M unit :=
  feature_definitions ;;
  open_read (FileSource.path fitness_source_value) ;;
  mret tt.

Definition feature_definitions_applying
    (commit : list pyobj -> Registry -> Registry) : M unit :=
  feature_definitions ;;
  apply_objects commit [EntityObj record_value; FileSourceObj fitness_source_value].

(** Evaluating the module in a fresh namespace, inside a process whose
    registry is [r].  The entries the interpreter itself puts into every
    module namespace ([__name__], [__file__], ...) are left out, and so is
    whatever the imported packages do while they are loaded: neither is
    written in this module. *)
Definition initial (r : Registry) : ModState := mkModState ∅ [] r.

Definition run (w : World) (r : Registry) : (PyError + unit) * ModState :=
  feature_definitions w (initial r).

Definition module_globals (w : World) (r : Registry) : gmap string pyobj :=
  globals (snd (run w r)).

(** ** Queries over a namespace *)

Definition lookup_feature_view (g : gmap string pyobj) (n : string)
  : option FeatureView.t :=
  match g !! n with
  | Some (FeatureViewObj v) => Some v
  | _ => None
  end.

Definition lookup_entity (g : gmap string pyobj) (n : string) : option Entity.t :=
  match g !! n with
  | Some (EntityObj e) => Some e
  | _ => None
  end.

Definition lookup_source (g : gmap string pyobj) (n : string)
  : option FileSource.t :=
  match g !! n with
  | Some (FileSourceObj s) => Some s
  | _ => None
  end.

Definition lookup_function (g : gmap string pyobj) (n : string) : option string :=
  match g !! n with
  | Some (FunctionObj q) => Some q
  | _ => None
  end.

Definition is_imported (o : pyobj) : bool :=
  match o with Imported _ _ => true | _ => false end.

(** Names bound to objects the module creates itself (not imported). *)
Definition defined_names (g : gmap string pyobj) : list string :=
  (map_to_list (filter (fun kv => is_imported (snd kv) = false) g)).*1.

Definition reads_outside (ev : effect) : bool :=
  match ev with
  | EvOpenFile _ | EvGetEnv _ | EvClock => true
  | _ => false
  end.

Definition is_construct (ev : effect) : bool :=
  match ev with EvConstruct _ => true | _ => false end.

Definition touches_registry (ev : effect) : bool :=
  match ev with EvApply _ => true | _ => false end.

(** The namespace the module ends with, written out. *)
Definition expected_globals : gmap string pyobj :=
  <["fitness_source" := FileSourceObj fitness_source_value]>
  (<["record" := EntityObj record_value]>
  (<["Int64" := Imported "feast.types" "Int64"]>
  (<["Float64" := Imported "feast.types" "Float64"]>
  (<["Float32" := Imported "feast.types" "Float32"]>
  (<["FileSource" := Imported "feast" "FileSource"]>
  (<["Field" := Imported "feast" "Field"]>
  (<["FeatureView" := Imported "feast" "FeatureView"]>
  (<["Entity" := Imported "feast" "Entity"]>
  (<["timedelta" := Imported "datetime" "timedelta"]> ∅))))))))).

Definition expected_trace : list effect :=
  [ EvImport "datetime" ["timedelta"];
    EvImport "feast" ["Entity"; "FeatureView"; "Field"; "FileSource"];
    EvImport "feast.types" ["Float32"; "Float64"; "Int64"];
    EvConstruct "Entity";
    EvConstruct "FileSource" ].

(** ** The point-in-time join of the feature store

    The module configures a feature store but contains no retrieval code.
    The definitions below write out the retrieval contract the
    specification gives for such a store (its section 4.3), over the
    [FeatureView] and [FileSource] objects above. *)

Section PointInTimeJoin.
Context {K V : Type} `{EqDecision K}.

(** Modelled from the spec: one row of a tabular source, which the
    repository does not define: the entity key, the value of the
    timestamp field, the value of the created-timestamp field (read only
    when the source descriptor names such a field), and the remaining
    columns by name. *)
Record Row : Type := mkRow {
  row_key : K;
  row_ts : Z;
  row_created : Z;
  row_values : gmap string V
}.

(** Modelled from the spec: a readable source, its column names and its
    rows in source order (no table type exists in the repository). *)
Record Table : Type := mkTable {
  columns : list string;
  rows : list Row
}.

(** Modelled from the spec: the failures of a query named in the error
    taxonomy, which the repository does not declare. *)
Inductive QueryError : Type :=
| NotFoundError (view_name : string)
| SourceUnavailableError (location : string)
| SchemaMismatchError (field : string).

Definition Result (A : Type) : Type := (QueryError + A)%type.

(** Modelled from the spec: FeatureRow, the derived output row (entity
    key values, event timestamp, field values; a null field is [None]). *)
Record FeatureRow : Type := mkFeatureRow {
  fr_key : K;
  fr_event_timestamp : Z;
  fr_fields : list (string * option V)
}.

(** Modelled from the spec: "rows matching entity_key whose timestamp
    field is <= event_timestamp" (the repository has no scan). *)
Definition matches (key : K) (T : Z) (r : Row) : bool :=
  bool_decide (row_key r = key) && (row_ts r <=? T).

(** Modelled from the spec: whether row [r], met later in the scan,
    replaces the best row so far: a larger timestamp wins; on equal
    timestamps the later created-timestamp wins if the source has that
    field; otherwise (and on equal created-timestamps) the later row in
    source order wins.  The repository has no such comparison. *)
Definition prefer (has_created : bool) (r best : Row) : bool :=
  if row_ts best <? row_ts r then true
  else if row_ts r <? row_ts best then false
  else if has_created then row_created best <=? row_created r
  else true.

Definition step (has_created : bool) (key : K) (T : Z) (i : nat) (r : Row)
    (best : option (nat * Row)) : option (nat * Row) :=
  if matches key T r then
    match best with
    | None => Some (i, r)
    | Some (j, b) => if prefer has_created r b then Some (i, r) else best
    end
  else best.

(** Modelled from the spec: the scan of a source for one
    (entity_key, event_timestamp) pair, absent from the repository; [i]
    is the position of the next row in source order and [best] the row
    kept so far, with its position. *)
Fixpoint scan (has_created : bool) (key : K) (T : Z) (i : nat)
    (rs : list Row) (best : option (nat * Row)) : option (nat * Row) :=
  match rs with
  | [] => best
  | r :: rest => scan has_created key T (S i) rest (step has_created key T i r best)
  end.

Definition has_created_field (src : FileSource.t) : bool :=
  match FileSource.created_timestamp_column src with
  | Some _ => true
  | None => false
  end.

(** Modelled from the spec: the row the join selects for a view, with its
    position in the source (the repository selects nothing). *)
Definition selected_row (view : FeatureView.t) (tbl : Table) (key : K) (T : Z)
  : option (nat * Row) :=
  scan (has_created_field (FeatureView.source view)) key T 0 (rows tbl) None.

Definition null_fields (fs : list Field.t) : list (string * option V) :=
  map (fun f => (Field.name f, None)) fs.

Definition fields_of_row (fs : list Field.t) (r : Row) : list (string * option V) :=
  map (fun f => (Field.name f, row_values r !! Field.name f)) fs.

(** The first declared field that is not a column of the source. *)
Definition missing_field (fs : list Field.t) (tbl : Table) : option Field.t :=
  List.find (fun f => negb (bool_decide (Field.name f ∈ columns tbl))) fs.

(** Modelled from the spec: the join of one view for one
    (entity_key, event_timestamp) pair on a readable source: the selected
    row's values if [event_timestamp - row_timestamp <= ttl], else nulls;
    nulls also when no row is selected.  Not present in the repository. *)
Definition join_table (view : FeatureView.t) (tbl : Table) (key : K) (T : Z)
  : list (string * option V) :=
  match selected_row view tbl key T with
  | Some (_, r) =>
      if T - row_ts r <=? FeatureView.ttl view
      then fields_of_row (FeatureView.schema view) r
      else null_fields (FeatureView.schema view)
  | None => null_fields (FeatureView.schema view)
  end.

(** Modelled from the spec: the join of one view against the sources
    that can be read ([store], by location); it fails with
    SourceUnavailableError if the source cannot be read and with
    SchemaMismatchError if a declared field is absent from the source.
    Not present in the repository. *)
Definition join_view (store : gmap string Table) (view : FeatureView.t)
    (key : K) (T : Z) : Result (list (string * option V)) :=
  match store !! FileSource.path (FeatureView.source view) with
  | None => inl (SourceUnavailableError (FileSource.path (FeatureView.source view)))
  | Some tbl =>
      match missing_field (FeatureView.schema view) tbl with
      | Some f => inl (SchemaMismatchError (Field.name f))
      | None => inr (join_table view tbl key T)
      end
  end.

Fixpoint traverse {A B : Type} (f : A -> Result B) (l : list A) : Result (list B) :=
  match l with
  | [] => inr []
  | a :: rest =>
      match f a with
      | inl e => inl e
      | inr b =>
          match traverse f rest with
          | inl e => inl e
          | inr bs => inr (b :: bs)
          end
      end
  end.

(** Modelled from the spec: the output row for one input row, all
    requested views joined (the repository has no query). *)
Definition historical_row (store : gmap string Table) (views : list FeatureView.t)
    (q : K * Z) : Result FeatureRow :=
  match traverse (fun v => join_view store v (fst q) (snd q)) views with
  | inl e => inl e
  | inr fss => inr (mkFeatureRow (fst q) (snd q) (concat fss))
  end.

Definition resolve_view (reg : gmap string FeatureView.t) (n : string)
  : Result FeatureView.t :=
  match reg !! n with
  | Some v => inr v
  | None => inl (NotFoundError n)
  end.

(** Modelled from the spec: the historical-feature query, one output row
    per input row (the repository has no such entry point). *)
Definition get_historical_features (store : gmap string Table)
    (reg : gmap string FeatureView.t) (entity_rows : list (K * Z))
    (names : list string) : Result (list FeatureRow) :=
  match traverse (resolve_view reg) names with
  | inl e => inl e
  | inr views => traverse (historical_row store views) entity_rows
  end.

(** The source as it stood at time [T]: rows stamped later are dropped. *)
Definition as_of (T : Z) (tbl : Table) : Table :=
  mkTable (columns tbl) (List.filter (fun r => row_ts r <=? T) (rows tbl)).

(** [r], at position [i], does not beat [s], at position [j], in the
    order of the selection: smaller timestamp, or equal timestamps and
    then smaller created-timestamp (if the field is present), or a tie
    and not later in the source. *)
Definition not_better (has_created : bool) (i : nat) (r : Row) (j : nat) (s : Row)
  : Prop :=
  row_ts r < row_ts s \/
  (row_ts r = row_ts s /\
   ((has_created = true /\ row_created r < row_created s) \/
    ((has_created = false \/ row_created r = row_created s) /\ (i <= j)%nat))).
(** What the scan knows about [best] once the rows [pre] are behind
    it: [best] is one of them, it matches, and no matching row among
    them beats it. *)
Definition scanned (has_created : bool) (key : K) (T : Z) (pre : list Row)
    (best : option (nat * Row)) : Prop :=
  match best with
  | None => forall i r, pre !! i = Some r -> matches key T r = false
  | Some (j, s) =>
      pre !! j = Some s /\ matches key T s = true /\
      forall i r, pre !! i = Some r -> matches key T r = true ->
                  not_better has_created i r j s
  end.
End PointInTimeJoin.

Arguments Row : clear implicits.
Arguments Table : clear implicits.
Arguments FeatureRow : clear implicits.

(** *** The scenario of the specification

    Entity [record] with key [record_id]; rows (record_id=1, 10:00, hr=70)
    and (record_id=1, 10:04, hr=90); a view with a ttl of five minutes.
    Times are seconds since midnight. *)

Definition hr_view : FeatureView.t :=
  FeatureView.mk "heart_rate" [record_value] 300 [Field.mk "hr" Float32]
                 true fitness_source_value [].

Definition hr_rows : list (Row Z Z) :=
  [ mkRow 1 36000 0 {["hr" := 70]};
    mkRow 1 36240 0 {["hr" := 90]} ].

Definition hr_store : gmap string (Table Z Z) :=
  {[ FileSource.path fitness_source_value :=
       mkTable ["record_id"; "synthetic_event_timestamp"; "hr"] hr_rows ]}.

Definition hr_registry : gmap string FeatureView.t :=
  {[ "heart_rate" := hr_view ]}.

(** Two rows with the same timestamp, in a source without a
    created-timestamp field and in one that has it. *)
Definition tied_rows : list (Row Z Z) :=
  [ mkRow 1 36000 5 {["hr" := 70]};
    mkRow 1 36000 3 {["hr" := 75]} ].

Definition tied_table : Table Z Z :=
  mkTable ["record_id"; "synthetic_event_timestamp"; "hr"] tied_rows.

Definition stamped_source : FileSource.t :=
  FileSource.mk (FileSource.path fitness_source_value)
                (FileSource.timestamp_field fitness_source_value)
                (Some "created").

Definition stamped_view : FeatureView.t :=
  FeatureView.mk "heart_rate" [record_value] 300 [Field.mk "hr" Float32]
                 true stamped_source [].

(** ** The module against a framework that is left open

    The packages the module imports and the two classes it calls are not
    part of the repository.  Below they are parameters: what loading a
    package does and what the constructors do is arbitrary code outside
    the module. *)

(** Code outside the module: it sees the surroundings and the registry of
    the process, acts observably, may change the registry, and returns or
    raises.  The namespace of the module is out of its reach. *)
Definition Ext (A : Type) : Type :=
  World -> Registry -> (PyError + A) * list effect * Registry.

Definition run_ext {A : Type} (x : Ext A) : M A :=
  fun w s =>
    (fst (fst (x w (registry s))),
     mkModState (globals s) (trace s ++ snd (fst (x w (registry s))))
                (snd (x w (registry s)))).

Definition is_feast_class (cls : string) (o : pyobj) : bool :=
  match o with
  | Imported m c => String.eqb m "feast" && String.eqb c cls
  | _ => false
  end.

Section Framework.
Variable load_package : string -> Ext unit.
Variable Entity_new : Entity.t -> Ext pyobj.
Variable FileSource_new : FileSource.t -> Ext pyobj.

(** [from m import n1, n2, ...]: the package is loaded first, and the
    names are bound only if that returns. *)
Definition import_from_with (m : string) (names : list string) : M unit :=
  emit (EvImport m names) ;; run_ext (load_package m) ;; bind_imports m names.

(** A call [cls(...)]: the callee is read from the namespace and its code
    is run.  After the import statements of the module the callee is the
    class of [feast]; the other branch is not reached from them. *)
Definition call_class (cls : string) (body : Ext pyobj) : M pyobj :=
  callee ← load_global cls ;
  if is_feast_class cls callee
  then emit (EvConstruct cls) ;; run_ext body
  else raise (TypeError cls).

(** The statements of [feature_definitions.py] once more, with the
    literal keyword arguments handed to the framework's constructors. *)
Definition feature_definitions_with : M unit :=
  import_from_with "datetime" ["timedelta"] ;;
  import_from_with "feast" ["Entity"; "FeatureView"; "Field"; "FileSource"] ;;
  import_from_with "feast.types" ["Float32"; "Float64"; "Int64"] ;;
  record ← call_class "Entity" (Entity_new record_value) ;
  store_global "record" record ;;
  fitness_source ← call_class "FileSource" (FileSource_new fitness_source_value) ;
  store_global "fitness_source" fitness_source.

Definition run_with (w : World) (r : Registry) : (PyError + unit) * ModState :=
  feature_definitions_with w (initial r).
End Framework.

(** External code that only returns a value. *)
Definition plain {A : Type} (a : A) : Ext A := fun _ reg => (inr a, [], reg).


(** A loader that finds [datetime] and fails for every other package, as
    when the framework is not installed. *)
Definition only_stdlib (m : string) : Ext unit :=
  fun _ reg =>
    if String.eqb m "datetime" then (inr tt, [], reg)
    else (inl (FileNotFoundError m), [], reg).

(** A [FileSource] constructor that rejects its arguments. *)
Definition rejecting_source (s : FileSource.t) : Ext pyobj :=
  fun _ reg => (inl (TypeError (FileSource.path s)), [], reg).

(** An [Entity] constructor that rejects its arguments. *)
Definition rejecting (e : Entity.t) : Ext pyobj :=
  fun _ reg => (inl (TypeError (Entity.name e)), [], reg).






(** The names the statements of the module bind. *)
Definition module_names : list string :=
  ["timedelta"; "Entity"; "FeatureView"; "Field"; "FileSource";
   "Float32"; "Float64"; "Int64"; "record"; "fitness_source"].

(** A computation that binds names of [names] only. *)
Definition binds_within (names : list string) {A : Type} (m : M A) : Prop :=
  forall w s n, n ∉ names -> globals (snd (m w s)) !! n = globals s !! n.

(** The namespace after the three import statements. *)
Definition imported_globals : gmap string pyobj :=
  <["Int64" := Imported "feast.types" "Int64"]>
  (<["Float64" := Imported "feast.types" "Float64"]>
  (<["Float32" := Imported "feast.types" "Float32"]>
  (<["FileSource" := Imported "feast" "FileSource"]>
  (<["Field" := Imported "feast" "Field"]>
  (<["FeatureView" := Imported "feast" "FeatureView"]>
  (<["Entity" := Imported "feast" "Entity"]>
  (<["timedelta" := Imported "datetime" "timedelta"]> ∅))))))).

(** * Properties *)

Lemma run_eq (w : World) (r : Registry) :
  run w r = (inr tt, mkModState expected_globals expected_trace r).
Proof. reflexivity. Qed.

Lemma module_globals_eq (w : World) (r : Registry) :
  module_globals w r = expected_globals.
Proof. reflexivity. Qed.

(** Every binding of the final namespace, by cases on the name. *)
Lemma expected_globals_inv (n : string) (o : pyobj) :
  expected_globals !! n = Some o ->
  (n = "fitness_source" /\ o = FileSourceObj fitness_source_value) \/
  (n = "record" /\ o = EntityObj record_value) \/
  (exists m, o = Imported m n).
Proof.
  unfold expected_globals.
  repeat (rewrite lookup_insert; case_decide;
          [ subst n; intros [= <-];
            first [ left; split; reflexivity
                  | right; left; split; reflexivity
                  | right; right; eexists; reflexivity ] | ]).
  rewrite lookup_empty. discriminate.
Qed.

(** A module that opened the CSV would show it in its trace, and would
    fail where the file does not exist. *)
Example reading_variant_is_observed (r : Registry) :
  let w := mkWorld ∅ 0 ∅ in
  let res := feature_definitions_reading_csv w (initial r) in
  fst res = inl (FileNotFoundError "../../../data/full_data_cleaned.csv") /\
  forallb (fun ev => negb (reads_outside ev)) (trace (snd res)) = false.
Proof. split; reflexivity. Qed.

(** A module that called the registration itself would change the
    registry and show the call in its trace. *)
Example applying_variant_is_observed
    (commit : list pyobj -> Registry -> Registry) (w : World) (r : Registry) :
  let res := feature_definitions_applying commit w (initial r) in
  registry (snd res)
    = commit [EntityObj record_value; FileSourceObj fitness_source_value] r /\
  forallb (fun ev => negb (touches_registry ev)) (trace (snd res)) = false.
Proof. split; reflexivity. Qed.

Section ModuleFacts.
Variable w : World.
Variable r : Registry.

(** ** C1 *)

(** C1: the module defines no FeatureView.  For every name, looking up a
    feature view among the top-level bindings gives nothing; the two
    intended groupings [heart_rate_stats] and [exertion_features] are
    comment stubs and so are not bound at all; and no function is defined
    in the module, so it holds no join logic. *)
Theorem no_feature_view_defined :
  (forall n, lookup_feature_view (module_globals w r) n = None) /\
  module_globals w r !! "heart_rate_stats" = None /\
  module_globals w r !! "exertion_features" = None /\
  (forall n, lookup_function (module_globals w r) n = None).
Proof.
  rewrite module_globals_eq.
  split; [| split; [reflexivity | split; [reflexivity |]]].
  - intros n. unfold lookup_feature_view.
    destruct (expected_globals !! n) as [o|] eqn:Ho; [| reflexivity].
    destruct (expected_globals_inv _ _ Ho) as [[_ ->] | [[_ ->] | [m ->]]];
      reflexivity.
  - intros n. unfold lookup_function.
    destruct (expected_globals !! n) as [o|] eqn:Ho; [| reflexivity].
    destruct (expected_globals_inv _ _ Ho) as [[_ ->] | [[_ ->] | [m ->]]];
      reflexivity.
Qed.

(** ** C2 *)

(** C2: the module defines exactly one Entity.  A name is bound to an
    entity iff the name is [record], and that entity has name "record",
    the join keys ["record_id"] in this order, and the description
    string of the source. *)
Theorem record_is_the_only_entity :
  (forall n e, lookup_entity (module_globals w r) n = Some e <->
               n = "record" /\ e = record_value) /\
  Entity.name record_value = "record" /\
  Entity.join_keys record_value = ["record_id"] /\
  Entity.description record_value =
    "Each row is one record, which is a related cluster of fitness device features".
Proof.
  rewrite module_globals_eq.
  split; [| repeat split].
  intros n e. unfold lookup_entity. split.
  - destruct (expected_globals !! n) as [o|] eqn:Ho; [| discriminate].
    destruct (expected_globals_inv _ _ Ho) as [[_ ->] | [[-> ->] | [m ->]]];
      try discriminate.
    intros [= <-]. split; reflexivity.
  - intros [-> ->]. reflexivity.
Qed.

(** ** C3 *)

(** C3: the module defines exactly one source descriptor.  A name is
    bound to a file source iff the name is [fitness_source]; its path is
    "../../../data/full_data_cleaned.csv", its timestamp field is
    "synthetic_event_timestamp", and its created-timestamp field is
    absent. *)
Theorem fitness_source_is_the_only_source :
  (forall n s, lookup_source (module_globals w r) n = Some s <->
               n = "fitness_source" /\ s = fitness_source_value) /\
  FileSource.path fitness_source_value = "../../../data/full_data_cleaned.csv" /\
  FileSource.timestamp_field fitness_source_value = "synthetic_event_timestamp" /\
  FileSource.created_timestamp_column fitness_source_value = None.
Proof.
  rewrite module_globals_eq.
  split; [| repeat split].
  intros n s. unfold lookup_source. split.
  - destruct (expected_globals !! n) as [o|] eqn:Ho; [| discriminate].
    destruct (expected_globals_inv _ _ Ho) as [[-> ->] | [[_ ->] | [m ->]]];
      try discriminate.
    intros [= <-]. split; reflexivity.
  - intros [-> ->]. reflexivity.
Qed.

(** ** C10 *)

(** C10: evaluating the module performs no registration.  The registry
    of the process is the same after evaluation as before, no apply call
    occurs, the only constructor calls are the two that build [record]
    and [fitness_source], and the names bound to objects the module
    creates are exactly these two: every other top-level name is one of
    the imported ones. *)
Theorem module_evaluation_registers_nothing :
  fst (run w r) = inr tt /\
  registry (snd (run w r)) = r /\
  forallb (fun ev => negb (touches_registry ev)) (trace (snd (run w r))) = true /\
  List.filter is_construct (trace (snd (run w r)))
    = [EvConstruct "Entity"; EvConstruct "FileSource"] /\
  defined_names (module_globals w r) ≡ₚ ["record"; "fitness_source"] /\
  (forall n o, module_globals w r !! n = Some o ->
               n = "record" \/ n = "fitness_source" \/ exists m, o = Imported m n).
Proof.
  rewrite module_globals_eq, run_eq. cbn [fst snd registry trace].
  repeat split.
  - change (defined_names expected_globals) with ["fitness_source"; "record"].
    apply Permutation_swap.
  - intros n o Ho.
    destruct (expected_globals_inv _ _ Ho) as [[-> _] | [[-> _] | ?]]; auto.
Qed.
End ModuleFacts.

(** ** The join: scenarios *)

(** Query at 10:06: the row of 10:04 is the latest and is two minutes old. *)
Example scenario_within_ttl :
  get_historical_features hr_store hr_registry [(1, 36360)] ["heart_rate"]
  = inr [mkFeatureRow 1 36360 [("hr", Some 90)]].
Proof. vm_compute. reflexivity. Qed.

(** Query at 10:11: the latest row is seven minutes old, the ttl is five. *)
Example scenario_stale :
  get_historical_features hr_store hr_registry [(1, 36660)] ["heart_rate"]
  = inr [mkFeatureRow 1 36660 [("hr", None)]].
Proof. vm_compute. reflexivity. Qed.

(** Query at 09:59: no row is old enough. *)
Example scenario_before_data :
  get_historical_features hr_store hr_registry [(1, 35940)] ["heart_rate"]
  = inr [mkFeatureRow 1 35940 [("hr", None)]].
Proof. vm_compute. reflexivity. Qed.

(** ** The join: the scan *)

Section ScanFacts.
Context {K V : Type} `{EqDecision K}.
Variable hc : bool.
Variable key : K.
Variable T : Z.

Implicit Types (r s : Row K V) (pre rs : list (Row K V))
               (best : option (nat * Row K V)).

Lemma not_better_refl i r : not_better hc i r i r.
Proof. unfold not_better. destruct hc; intuition lia. Qed.

Lemma prefer_true_trans i r' j s n r :
  not_better hc i r' j s -> prefer hc r s = true -> (i < n)%nat ->
  not_better hc i r' n r.
Proof.
  unfold not_better, prefer. intros Hnb Hp Hlt.
  destruct (row_ts s <? row_ts r) eqn:E1; [apply Z.ltb_lt in E1; lia |].
  apply Z.ltb_ge in E1.
  destruct (row_ts r <? row_ts s) eqn:E2; [discriminate |].
  apply Z.ltb_ge in E2.
  destruct hc; [apply Z.leb_le in Hp |]; intuition (try discriminate; lia).
Qed.

Lemma prefer_false_not_better n r j s :
  prefer hc r s = false -> not_better hc n r j s.
Proof.
  unfold not_better, prefer. intros Hp.
  destruct (row_ts s <? row_ts r) eqn:E1; [discriminate |].
  apply Z.ltb_ge in E1.
  destruct (row_ts r <? row_ts s) eqn:E2; [apply Z.ltb_lt in E2; lia |].
  apply Z.ltb_ge in E2.
  destruct hc; [apply Z.leb_gt in Hp | discriminate].
  right. split; [lia |]. left. split; [reflexivity | lia].
Qed.

Lemma step_scanned pre best r :
  scanned hc key T pre best -> scanned hc key T (pre ++ [r]) (step hc key T (length pre) r best).
Proof.
  intros Hinv. unfold step.
  destruct (matches key T r) eqn:Hm.
  - destruct best as [[j s]|]; cbn in Hinv.
    + destruct Hinv as (Hj & Hs & Hall).
      destruct (prefer hc r s) eqn:Hp; cbn.
      * split; [apply list_lookup_middle; reflexivity |].
        split; [exact Hm |].
        intros i r' Hi Hr'. apply lookup_snoc_Some in Hi as [[Hlt Hi] | [-> <-]].
        -- eapply prefer_true_trans; eauto.
        -- apply not_better_refl.
      * split; [apply lookup_app_l_Some; exact Hj |].
        split; [exact Hs |].
        intros i r' Hi Hr'. apply lookup_snoc_Some in Hi as [[Hlt Hi] | [-> <-]].
        -- auto.
        -- apply prefer_false_not_better; exact Hp.
    + cbn. split; [apply list_lookup_middle; reflexivity |].
      split; [exact Hm |].
      intros i r' Hi Hr'. apply lookup_snoc_Some in Hi as [[Hlt Hi] | [-> <-]].
      * rewrite (Hinv _ _ Hi) in Hr'. discriminate.
      * apply not_better_refl.
  - destruct best as [[j s]|]; cbn in Hinv |- *.
    + destruct Hinv as (Hj & Hs & Hall).
      split; [apply lookup_app_l_Some; exact Hj |].
      split; [exact Hs |].
      intros i r' Hi Hr'. apply lookup_snoc_Some in Hi as [[Hlt Hi] | [-> <-]].
      * auto.
      * congruence.
    + intros i r' Hi. apply lookup_snoc_Some in Hi as [[Hlt Hi] | [-> <-]]; eauto.
Qed.

Lemma scan_scanned rs : forall pre best,
  scanned hc key T pre best -> scanned hc key T (pre ++ rs) (scan hc key T (length pre) rs best).
Proof.
  induction rs as [| r rest IH]; intros pre best Hinv; cbn [scan].
  - rewrite app_nil_r. exact Hinv.
  - apply step_scanned with (r := r) in Hinv.
    apply IH in Hinv.
    rewrite length_app, Nat.add_1_r, <- app_assoc in Hinv. exact Hinv.
Qed.

Lemma scan_from_start rs : scanned hc key T rs (scan hc key T 0 rs None).
Proof.
  apply (scan_scanned rs [] None). intros i r Hi. discriminate.
Qed.

(** The row kept by the scan does not depend on the positions, and rows
    stamped after [T] can be dropped beforehand. *)
Lemma scan_as_of rs : forall i i' best best',
  snd <$> best = snd <$> best' ->
  snd <$> scan hc key T i (List.filter (fun r => row_ts r <=? T) rs) best
  = snd <$> scan hc key T i' rs best'.
Proof.
  induction rs as [| r rest IH]; intros i i' best best' Hb; cbn [scan List.filter].
  - exact Hb.
  - destruct (row_ts r <=? T) eqn:Hts.
    + cbn [scan]. apply IH. unfold step.
      destruct (matches key T r); [| exact Hb].
      destruct best as [[j s]|], best' as [[j' s']|]; cbn in Hb; try discriminate.
      * injection Hb as ->. destruct (prefer hc r s'); reflexivity.
      * reflexivity.
    + rewrite (IH i (S i') best (step hc key T i' r best')); [reflexivity |].
      unfold step, matches. rewrite Hts, andb_false_r. exact Hb.
Qed.
End ScanFacts.

(** ** The join: queries *)

Section QueryFacts.
Context {K V : Type} `{EqDecision K}.

Implicit Types (r s : Row K V) (tbl : Table K V)
               (store : gmap string (Table K V)) (view : FeatureView.t).

Lemma traverse_lookup {A B : Type} (f : A -> Result B) (l : list A) :
  forall (out : list B) (n : nat) (a : A),
    traverse f l = inr out -> l !! n = Some a ->
    exists b, out !! n = Some b /\ f a = inr b.
Proof.
  induction l as [| x rest IH]; intros out n a Ht Hn; [discriminate |].
  cbn [traverse] in Ht.
  destruct (f x) as [e | b] eqn:Hx; [discriminate |].
  destruct (traverse f rest) as [e | bs] eqn:Hrest; [discriminate |].
  injection Ht as <-.
  destruct n as [| n]; cbn in Hn |- *.
  - injection Hn as <-. eauto.
  - eapply IH; eauto.
Qed.

Lemma traverse_ext {A B : Type} (f g : A -> Result B) (l : list A) :
  (forall a, In a l -> f a = g a) -> traverse f l = traverse g l.
Proof.
  induction l as [| x rest IH]; intros Hfg; [reflexivity |].
  cbn [traverse]. rewrite (Hfg x (or_introl eq_refl)).
  rewrite IH; [reflexivity |]. intros a Ha. apply Hfg. right. exact Ha.
Qed.

Lemma selected_row_matches view tbl key T j s :
  selected_row view tbl key T = Some (j, s) ->
  rows tbl !! j = Some s /\ row_key s = key /\ row_ts s <= T.
Proof.
  intros Hsel. unfold selected_row in Hsel.
  pose proof (scan_from_start (has_created_field (FeatureView.source view))
                              key T (rows tbl)) as Hinv.
  rewrite Hsel in Hinv. cbn in Hinv. destruct Hinv as (Hj & Hm & _).
  unfold matches in Hm. apply andb_prop in Hm as [Hk Hts].
  apply bool_decide_eq_true in Hk. apply Z.leb_le in Hts. auto.
Qed.

Lemma join_table_as_of view tbl key T :
  join_table view (as_of T tbl) key T = join_table view tbl key T.
Proof.
  unfold join_table, selected_row. cbn [as_of rows].
  pose proof (scan_as_of (has_created_field (FeatureView.source view)) key T
                         (rows tbl) 0%nat 0%nat None None eq_refl) as Hs.
  destruct (scan _ key T 0 (List.filter _ (rows tbl)) None) as [[j s]|];
    destruct (scan _ key T 0 (rows tbl) None) as [[j' s']|];
    cbn in Hs; try discriminate; [| reflexivity].
  injection Hs as ->. reflexivity.
Qed.

Lemma join_view_as_of store view key T :
  join_view (as_of T <$> store) view key T = join_view store view key T.
Proof.
  unfold join_view. rewrite lookup_fmap.
  destruct (store !! FileSource.path (FeatureView.source view)) as [tbl|];
    cbn [fmap option_fmap option_map]; [| reflexivity].
  change (missing_field (FeatureView.schema view) (as_of T tbl))
    with (missing_field (FeatureView.schema view) tbl).
  destruct (missing_field (FeatureView.schema view) tbl); [reflexivity |].
  rewrite join_table_as_of. reflexivity.
Qed.

Lemma historical_row_as_of store views key T :
  historical_row (as_of T <$> store) views (key, T)
  = historical_row store views (key, T).
Proof.
  unfold historical_row. cbn [fst snd].
  rewrite (traverse_ext _ (fun v => join_view store v key T)); [reflexivity |].
  intros v _. apply join_view_as_of.
Qed.
End QueryFacts.

(** Equal timestamps, no created-timestamp field: the later row wins. *)
Example tie_break_source_order :
  selected_row hr_view tied_table 1 36000 = Some (1%nat, mkRow 1 36000 3 {["hr" := 75]}).
Proof. vm_compute. reflexivity. Qed.

(** Equal timestamps, created-timestamp field present: the row created
    later wins, although it comes first. *)
Example tie_break_created :
  selected_row stamped_view tied_table 1 36000 = Some (0%nat, mkRow 1 36000 5 {["hr" := 70]}).
Proof. vm_compute. reflexivity. Qed.

Section JoinTheorems.
Context {K V : Type} `{EqDecision K}.

Implicit Types (r s : Row K V) (tbl : Table K V)
               (store : gmap string (Table K V)) (view : FeatureView.t).

(** ** C4 *)

(** C4 (no leakage): take any historical-feature query and any of its
    input rows, with event timestamp [T].  A source row whose timestamp
    is greater than [T] is never the row selected for [T], and the
    output row produced for [T] is the one the query produces on the
    sources as of [T], in which no row stamped after [T] exists. *)
Theorem no_future_leakage store (reg : gmap string FeatureView.t)
    (qs : list (K * Z)) (names : list string) (out : list (FeatureRow K V))
    (n : nat) (key : K) (T : Z) :
  get_historical_features store reg qs names = inr out ->
  qs !! n = Some (key, T) ->
  (forall view tbl i r,
      rows tbl !! i = Some r -> row_ts r > T ->
      selected_row view tbl key T <> Some (i, r)) /\
  exists fr,
    out !! n = Some fr /\
    get_historical_features (as_of T <$> store) reg [(key, T)] names = inr [fr] /\
    (forall loc tbl r,
        (as_of T <$> store) !! loc = Some tbl -> In r (rows tbl) -> row_ts r <= T).
Proof.
  intros Hq Hn. split.
  - intros view tbl i r Hi Hts Hsel.
    apply selected_row_matches in Hsel as (_ & _ & Hle). lia.
  - unfold get_historical_features in Hq |- *.
    destruct (traverse (resolve_view reg) names) as [e | views]; [discriminate |].
    destruct (traverse_lookup _ _ _ _ _ Hq Hn) as (fr & Hout & Hrow).
    exists fr. split; [exact Hout |]. split.
    + cbn [traverse]. rewrite historical_row_as_of, Hrow. reflexivity.
    + intros loc tbl r Hloc Hin.
      rewrite lookup_fmap in Hloc.
      destruct (store !! loc) as [tbl0|]; [| discriminate].
      cbn in Hloc. injection Hloc as <-.
      cbn [as_of rows] in Hin. apply filter_In in Hin as [_ Hle].
      apply Z.leb_le in Hle. exact Hle.
Qed.

(** ** C5 *)

(** C5 (staleness): if the row selected for a view at event timestamp
    [T] is older than the view's ttl, then the row is still one with
    timestamp at most [T], the join of the view succeeds with every field
    null, and in the output row of any query that asks for the view these
    fields are the nulls: the stale row causes no failure. *)
Theorem stale_fields_are_null store view tbl (key : K) (T : Z) (j : nat) s :
  store !! FileSource.path (FeatureView.source view) = Some tbl ->
  missing_field (FeatureView.schema view) tbl = None ->
  selected_row view tbl key T = Some (j, s) ->
  T - row_ts s > FeatureView.ttl view ->
  row_ts s <= T /\
  join_view store view key T = inr (null_fields (FeatureView.schema view)) /\
  Forall (fun nv => snd nv = None) (@null_fields V (FeatureView.schema view)) /\
  historical_row store [view] (key, T)
    = inr (mkFeatureRow key T (null_fields (FeatureView.schema view))) /\
  (forall views n fr,
      views !! n = Some view ->
      historical_row store views (key, T) = inr fr ->
      exists fss, fr_fields fr = concat fss /\
                  fss !! n = Some (null_fields (FeatureView.schema view))).
Proof.
  intros Hstore Hschema Hsel Hstale.
  assert (Hjoin : join_view store view key T
                  = inr (null_fields (FeatureView.schema view))).
  { unfold join_view. rewrite Hstore, Hschema. unfold join_table. rewrite Hsel.
    destruct (T - row_ts s <=? FeatureView.ttl view) eqn:Hle; [| reflexivity].
    apply Z.leb_le in Hle. lia. }
  split; [apply selected_row_matches in Hsel; tauto |].
  split; [exact Hjoin |].
  split.
  { unfold null_fields. apply Forall_forall. intros nv Hin.
    apply list_elem_of_In, in_map_iff in Hin as (f & <- & _). reflexivity. }
  split.
  { unfold historical_row. cbn [traverse fst snd]. rewrite Hjoin.
    cbn [concat]. rewrite app_nil_r. reflexivity. }
  intros views n fr Hn Hrow. unfold historical_row in Hrow. cbn [fst snd] in Hrow.
  destruct (traverse (fun v => join_view store v key T) views) as [e | fss] eqn:Ht;
    [discriminate |].
  injection Hrow as <-. exists fss. split; [reflexivity |].
  destruct (traverse_lookup _ _ _ _ _ Ht Hn) as (fs & Hfs & Hv).
  rewrite Hjoin in Hv. injection Hv as <-. exact Hfs.
Qed.

(** ** C6 *)

(** C6 (selection and tie-break): whenever some source row matches the
    entity key with a timestamp at most the event timestamp, the join
    selects a row with these two properties, and no such row beats it:
    none has a greater timestamp; among those with the same timestamp
    none has a later created-timestamp when the source has that field;
    and among those tied (no such field, or equal created-timestamps)
    none comes later in the source.  The output fields are taken from
    the selected row, subject to the ttl. *)
Theorem join_selects_latest view tbl (key : K) (T : Z) (i : nat) r :
  rows tbl !! i = Some r -> row_key r = key -> row_ts r <= T ->
  exists j s,
    selected_row view tbl key T = Some (j, s) /\
    rows tbl !! j = Some s /\ row_key s = key /\ row_ts s <= T /\
    row_ts r <= row_ts s /\
    (row_ts r = row_ts s ->
     has_created_field (FeatureView.source view) = true ->
     row_created r <= row_created s) /\
    (row_ts r = row_ts s ->
     has_created_field (FeatureView.source view) = false \/
       row_created r = row_created s ->
     (i <= j)%nat) /\
    join_table view tbl key T
      = if T - row_ts s <=? FeatureView.ttl view
        then fields_of_row (FeatureView.schema view) s
        else null_fields (FeatureView.schema view).
Proof.
  intros Hi Hk Hts.
  assert (Hm : matches key T r = true).
  { unfold matches. rewrite bool_decide_eq_true_2 by exact Hk.
    apply Z.leb_le in Hts. rewrite Hts. reflexivity. }
  pose proof (scan_from_start (has_created_field (FeatureView.source view))
                              key T (rows tbl)) as Hinv.
  destruct (selected_row view tbl key T) as [[j s]|] eqn:Hsel;
    unfold selected_row in Hsel; rewrite Hsel in Hinv; cbn in Hinv.
  - destruct Hinv as (Hj & Hs & Hall).
    exists j, s. split; [reflexivity |].
    unfold matches in Hs. apply andb_prop in Hs as [Hks Htss].
    apply bool_decide_eq_true in Hks. apply Z.leb_le in Htss.
    specialize (Hall i r Hi Hm). unfold not_better in Hall.
    repeat split; try assumption.
    + lia.
    + intros Heq Hc. rewrite Hc in Hall. intuition (try discriminate; lia).
    + intros Heq Hc. intuition (try congruence; lia).
    + unfold join_table, selected_row. rewrite Hsel. reflexivity.
  - rewrite (Hinv i r Hi) in Hm. discriminate.
Qed.
End JoinTheorems.

(** ** The join theorems on the scenario *)

(** C4 at 10:01, when only the row of 10:00 exists yet. *)
Lemma no_future_leakage_witness :
  get_historical_features hr_store hr_registry [(1, 36060)] ["heart_rate"]
    = inr [mkFeatureRow 1 36060 [("hr", Some 70)]] /\
  [(1, 36060)] !! 0%nat = Some (1, 36060) /\
  ((forall view (tbl : Table Z Z) i r,
       rows tbl !! i = Some r -> row_ts r > 36060 ->
       selected_row view tbl 1 36060 <> Some (i, r)) /\
   exists fr,
     [mkFeatureRow 1 36060 [("hr", Some 70)]] !! 0%nat = Some fr /\
     get_historical_features (as_of 36060 <$> hr_store) hr_registry
                             [(1, 36060)] ["heart_rate"] = inr [fr] /\
     (forall loc tbl r,
         (as_of 36060 <$> hr_store) !! loc = Some tbl -> In r (rows tbl) ->
         row_ts r <= 36060)).
Proof.
  assert (Hq : get_historical_features hr_store hr_registry [(1, 36060)] ["heart_rate"]
               = inr [mkFeatureRow 1 36060 [("hr", Some 70)]])
    by (vm_compute; reflexivity).
  split; [exact Hq |]. split; [reflexivity |].
  exact (no_future_leakage hr_store hr_registry [(1, 36060)] ["heart_rate"]
           [mkFeatureRow 1 36060 [("hr", Some 70)]] 0%nat 1 36060 Hq eq_refl).
Defined.

(** C5 at 10:11: the row of 10:04 is selected and is seven minutes old. *)
Lemma stale_fields_are_null_witness :
  hr_store !! FileSource.path (FeatureView.source hr_view)
    = Some (mkTable ["record_id"; "synthetic_event_timestamp"; "hr"] hr_rows) /\
  selected_row hr_view (mkTable ["record_id"; "synthetic_event_timestamp"; "hr"] hr_rows)
               1 36660
    = Some (1%nat, mkRow 1 36240 0 {["hr" := 90]}) /\
  36660 - 36240 > FeatureView.ttl hr_view /\
  join_view hr_store hr_view 1 36660 = inr [("hr", None)].
Proof.
  assert (Hs : hr_store !! FileSource.path (FeatureView.source hr_view)
               = Some (mkTable ["record_id"; "synthetic_event_timestamp"; "hr"] hr_rows))
    by (vm_compute; reflexivity).
  assert (Hm : missing_field (FeatureView.schema hr_view)
                 (mkTable ["record_id"; "synthetic_event_timestamp"; "hr"] hr_rows) = None)
    by (vm_compute; reflexivity).
  assert (Hsel : selected_row hr_view
                   (mkTable ["record_id"; "synthetic_event_timestamp"; "hr"] hr_rows)
                   1 36660
                 = Some (1%nat, mkRow 1 36240 0 {["hr" := 90]}))
    by (vm_compute; reflexivity).
  assert (Hold : 36660 - row_ts (mkRow 1 36240 0 ({["hr" := 90]} : gmap string Z))
                 > FeatureView.ttl hr_view)
    by (cbn; lia).
  split; [exact Hs |]. split; [exact Hsel |]. split; [cbn; lia |].
  exact (proj1 (proj2 (stale_fields_are_null hr_store hr_view _ 1 36660 1%nat _
                         Hs Hm Hsel Hold))).
Defined.

(** C6 at 10:06, for the row of 10:00: the row of 10:04 is selected. *)
Lemma join_selects_latest_witness :
  hr_rows !! 0%nat = Some (mkRow 1 36000 0 {["hr" := 70]}) /\
  exists j s,
    selected_row hr_view (mkTable ["record_id"; "synthetic_event_timestamp"; "hr"] hr_rows)
                 1 36360 = Some (j, s) /\
    36000 <= row_ts s.
Proof.
  split; [reflexivity |].
  destruct (join_selects_latest hr_view
              (mkTable ["record_id"; "synthetic_event_timestamp"; "hr"] hr_rows)
              1 36360 0%nat (mkRow 1 36000 0 {["hr" := 70]})
              eq_refl eq_refl ltac:(cbn; lia))
    as (j & s & Hsel & _ & _ & _ & Hle & _).
  exists j, s. split; [exact Hsel | exact Hle].
Defined.

(** ** The module against an open framework: sequencing *)

Section Sequencing.
Context {A B : Type}.
Variable m : M A.
Variable k : A -> M B.

Lemma bind_inr (w : World) (s : ModState) (a : A) (s' : ModState) :
  m w s = (inr a, s') -> (m ≫= k) w s = k a w s'.
Proof. intros Hm. unfold mbind, M_bind, bind. rewrite Hm. reflexivity. Qed.

Lemma bind_inl (w : World) (s : ModState) (e : PyError) (s' : ModState) :
  m w s = (inl e, s') -> (m ≫= k) w s = (inl e, s').
Proof. intros Hm. unfold mbind, M_bind, bind. rewrite Hm. reflexivity. Qed.



Lemma within_bind (names : list string) :
  binds_within names m -> (forall a, binds_within names (k a)) ->
  binds_within names (m ≫= k).
Proof.
  intros Hm Hk w s n Hn. unfold mbind, M_bind, bind. specialize (Hm w s n Hn).
  destruct (m w s) as [[e | a] s']; cbn [snd] in *; [exact Hm |].
  rewrite (Hk a w s' n Hn). exact Hm.
Qed.
End Sequencing.

(** The three properties for the statements the module is made of. *)
Section Statements.
Variable load_package : string -> Ext unit.



Lemma emit_within names ev : binds_within names (emit ev).
Proof. intros w s n _. reflexivity. Qed.

Lemma store_within names x v : x ∈ names -> binds_within names (store_global x v).
Proof.
  intros Hx w s n Hn. cbn. apply lookup_insert_ne. intros ->. exact (Hn Hx).
Qed.



Lemma bind_imports_within all mo names :
  names ⊆ all -> binds_within all (bind_imports mo names).
Proof.
  induction names as [| n rest IH]; intros Hsub; [intros w s x _; reflexivity |].
  cbn [bind_imports]. apply within_bind.
  - apply store_within. apply Hsub. left.
  - intros _. apply IH. intros x Hx. apply Hsub. right. exact Hx.
Qed.

Lemma bind_imports_run mo names w : forall s,
  bind_imports mo names w s
  = (inr tt, mkModState (foldl (fun g n => <[n := Imported mo n]> g) (globals s) names)
                        (trace s) (registry s)).
Proof.
  induction names as [| n rest IH]; intros s.
  - destruct s. reflexivity.
  - cbn [bind_imports foldl].
    rewrite (bind_inr _ _ w s tt
               (mkModState (<[n := Imported mo n]> (globals s)) (trace s) (registry s)))
      by reflexivity.
    rewrite IH. reflexivity.
Qed.



Lemma run_ext_within names {A : Type} (x : Ext A) : binds_within names (run_ext x).
Proof. intros w s n _. reflexivity. Qed.



Lemma import_within all mo names :
  names ⊆ all -> binds_within all (import_from_with load_package mo names).
Proof.
  intros Hsub. unfold import_from_with.
  apply within_bind; [apply emit_within | intros _].
  apply within_bind; [apply run_ext_within | intros _].
  apply bind_imports_within. exact Hsub.
Qed.



Lemma call_within names cls (body : Ext pyobj) :
  binds_within names (call_class cls body).
Proof.
  unfold call_class. apply within_bind.
  - intros w s n _. unfold load_global. destruct (globals s !! cls); reflexivity.
  - intros callee.
    destruct (is_feast_class cls callee); [| intros w s n _; reflexivity].
    apply within_bind; [apply emit_within | intros _; apply run_ext_within].
Qed.
End Statements.

Section StatementRuns.
Variable load_package : string -> Ext unit.
Variable w : World.

Lemma import_returns mo names (s : ModState) :
  fst (fst (load_package mo w (registry s))) = inr tt ->
  exists t reg,
    import_from_with load_package mo names w s
    = (inr tt, mkModState (foldl (fun g n => <[n := Imported mo n]> g) (globals s) names)
                          t reg).
Proof.
  intros Hl. unfold import_from_with.
  erewrite bind_inr by reflexivity.
  erewrite bind_inr by (unfold run_ext; cbn [registry]; rewrite Hl; reflexivity).
  rewrite bind_imports_run. cbn [globals trace registry]. eauto.
Qed.

Lemma call_outcome cls (body : Ext pyobj) (s : ModState) :
  globals s !! cls = Some (Imported "feast" cls) ->
  exists t reg,
    call_class cls body w s
    = (fst (fst (body w (registry s))), mkModState (globals s) t reg).
Proof.
  intros Hcls. unfold call_class.
  erewrite bind_inr by (unfold load_global; rewrite Hcls; reflexivity).
  unfold is_feast_class. rewrite !String.eqb_refl. cbn [andb].
  erewrite bind_inr by reflexivity.
  unfold run_ext. cbn [globals trace registry]. eauto.
Qed.
End StatementRuns.

(** With constructors and loaders that only return, the open module is
    the module as modelled above. *)
Lemma plain_framework_run (w : World) (r : Registry) :
  run_with (fun _ => plain tt) (fun e => plain (EntityObj e))
           (fun s => plain (FileSourceObj s)) w r
  = run w r.
Proof. reflexivity. Qed.

(** ** C9 *)




(** ** What the module binds, whatever the framework does *)

Ltac name_in_list :=
  repeat first [apply list_elem_of_here | apply list_elem_of_further].

Ltac names_in_list :=
  let x := fresh "x" in
  let Hx := fresh "Hx" in
  intros x Hx;
  repeat (apply elem_of_cons in Hx as [-> | Hx]; [name_in_list |]);
  apply elem_of_nil in Hx; destruct Hx.

Section OpenFramework.
Variable load_package : string -> Ext unit.
Variable Entity_new : Entity.t -> Ext pyobj.
Variable FileSource_new : FileSource.t -> Ext pyobj.

Lemma import_raises (w : World) mo names (s : ModState) (e : PyError) :
  fst (fst (load_package mo w (registry s))) = inl e ->
  exists t reg,
    import_from_with load_package mo names w s = (inl e, mkModState (globals s) t reg).
Proof.
  intros Hl. unfold import_from_with.
  erewrite bind_inr by reflexivity.
  erewrite bind_inl by (unfold run_ext; cbn [registry]; rewrite Hl; reflexivity).
  cbn [globals]. eauto.
Qed.

(** X1: the module binds its own ten names and nothing else, whatever
    loading the packages and calling the constructors does and whether the
    evaluation finishes or stops with an exception.  Started in a namespace
    that already holds bindings, it leaves every other name as it was;
    started in a fresh one, it leaves every other name unbound (so
    [heart_rate_stats] and [exertion_features] stay unbound). *)
Theorem module_binds_only_its_names :
  (forall w s n,
      n ∉ module_names ->
      globals (snd (feature_definitions_with load_package Entity_new FileSource_new w s)) !! n
      = globals s !! n) /\
  (forall w r n,
      n ∉ module_names ->
      globals (snd (run_with load_package Entity_new FileSource_new w r)) !! n = None) /\
  (forall w r,
      globals (snd (run_with load_package Entity_new FileSource_new w r))
        !! "heart_rate_stats" = None /\
      globals (snd (run_with load_package Entity_new FileSource_new w r))
        !! "exertion_features" = None).
Proof.
  assert (Hwithin : binds_within module_names
            (feature_definitions_with load_package Entity_new FileSource_new)).
  { unfold feature_definitions_with, module_names.
    apply within_bind; [apply import_within; names_in_list | intros _].
    apply within_bind; [apply import_within; names_in_list | intros _].
    apply within_bind; [apply import_within; names_in_list | intros _].
    apply within_bind; [apply call_within | intros record].
    apply within_bind; [apply store_within; name_in_list | intros _].
    apply within_bind; [apply call_within | intros fitness_source].
    apply store_within; name_in_list. }
  assert (Hfresh : forall w r n, n ∉ module_names ->
            globals (snd (run_with load_package Entity_new FileSource_new w r)) !! n = None).
  { intros w r n Hn. unfold run_with. rewrite (Hwithin w (initial r) n Hn).
    apply lookup_empty. }
  split; [exact Hwithin |]. split; [exact Hfresh |].
  intros w r. split; apply Hfresh; unfold module_names;
    rewrite !elem_of_cons, elem_of_nil; intros H;
    repeat (destruct H as [H | H]; [discriminate |]); exact H.
Qed.

Variable w : World.
Variable r : Registry.

(** X2: if the [feast] package cannot be loaded, the evaluation stops at
    the second import statement with that exception: [timedelta] is the
    only name bound, and neither [record] nor [fitness_source] exists. *)
Theorem failed_import_stops_evaluation (e : PyError) :
  (forall reg, fst (fst (load_package "datetime" w reg)) = inr tt) ->
  (forall reg, fst (fst (load_package "feast" w reg)) = inl e) ->
  fst (run_with load_package Entity_new FileSource_new w r) = inl e /\
  globals (snd (run_with load_package Entity_new FileSource_new w r))
    = {[ "timedelta" := Imported "datetime" "timedelta" ]}.
Proof.
  intros Hd Hf. unfold run_with, feature_definitions_with.
  destruct (import_returns load_package w "datetime" ["timedelta"] (initial r) (Hd _))
    as (t1 & g1 & H1).
  rewrite (bind_inr _ _ _ _ _ _ H1). cbn [foldl initial globals] in *.
  destruct (import_raises w "feast" ["Entity"; "FeatureView"; "Field"; "FileSource"]
              (mkModState (<["timedelta" := Imported "datetime" "timedelta"]> ∅) t1 g1)
              e (Hf _)) as (t2 & g2 & H2).
  rewrite (bind_inl _ _ _ _ _ _ H2). cbn [fst snd globals].
  split; reflexivity.
Qed.

Hypothesis loads : forall mo reg, fst (fst (load_package mo w reg)) = inr tt.

Lemma after_imports :
  forall (k : unit -> M unit), exists t reg,
    (import_from_with load_package "datetime" ["timedelta"] ;;
     import_from_with load_package "feast" ["Entity"; "FeatureView"; "Field"; "FileSource"] ;;
     import_from_with load_package "feast.types" ["Float32"; "Float64"; "Int64"] ;;
     k tt) w (initial r)
    = k tt w (mkModState imported_globals t reg).
Proof.
  intros k.
  destruct (import_returns load_package w "datetime" ["timedelta"] (initial r) (loads _ _))
    as (t1 & g1 & H1).
  rewrite (bind_inr _ _ _ _ _ _ H1).
  destruct (import_returns load_package w "feast"
              ["Entity"; "FeatureView"; "Field"; "FileSource"]
              (mkModState (<["timedelta" := Imported "datetime" "timedelta"]> ∅) t1 g1)
              (loads _ _))
    as (t2 & g2 & H2).
  rewrite (bind_inr _ _ _ _ _ _ H2).
  destruct (import_returns load_package w "feast.types"
              ["Float32"; "Float64"; "Int64"]
              (mkModState
                 (<["FileSource" := Imported "feast" "FileSource"]>
                 (<["Field" := Imported "feast" "Field"]>
                 (<["FeatureView" := Imported "feast" "FeatureView"]>
                 (<["Entity" := Imported "feast" "Entity"]>
                 (<["timedelta" := Imported "datetime" "timedelta"]> ∅))))) t2 g2)
              (loads _ _))
    as (t3 & g3 & H3).
  rewrite (bind_inr _ _ _ _ _ _ H3).
  exists t3, g3. reflexivity.
Qed.

(** X3: if the packages load and [Entity(...)] raises, the evaluation
    stops with that exception before [FileSource] is reached: the eight
    imported names are bound, [record] and [fitness_source] are not. *)
Theorem entity_failure_stops_evaluation (e : PyError) :
  (forall reg, fst (fst (Entity_new record_value w reg)) = inl e) ->
  fst (run_with load_package Entity_new FileSource_new w r) = inl e /\
  globals (snd (run_with load_package Entity_new FileSource_new w r)) = imported_globals.
Proof.
  intros He. unfold run_with, feature_definitions_with.
  destruct (after_imports (fun _ =>
              record ← call_class "Entity" (Entity_new record_value) ;
              store_global "record" record ;;
              fitness_source ← call_class "FileSource" (FileSource_new fitness_source_value) ;
              store_global "fitness_source" fitness_source)) as (t & reg & ->).
  destruct (call_outcome w "Entity" (Entity_new record_value)
              (mkModState imported_globals t reg) eq_refl) as (t' & reg' & Hc).
  rewrite He in Hc. rewrite (bind_inl _ _ _ _ _ _ Hc). split; reflexivity.
Qed.

(** X4: if the packages load, [Entity(...)] returns an object and
    [FileSource(...)] raises, the evaluation stops with that exception
    half-way: [record] is bound to the object [Entity] returned, next to
    the eight imported names, and [fitness_source] is not bound. *)
Theorem source_failure_leaves_record_bound (obj : pyobj) (e : PyError) :
  (forall reg, fst (fst (Entity_new record_value w reg)) = inr obj) ->
  (forall reg, fst (fst (FileSource_new fitness_source_value w reg)) = inl e) ->
  fst (run_with load_package Entity_new FileSource_new w r) = inl e /\
  globals (snd (run_with load_package Entity_new FileSource_new w r))
    = <["record" := obj]> imported_globals /\
  globals (snd (run_with load_package Entity_new FileSource_new w r))
    !! "fitness_source" = None.
Proof.
  intros He Hs. unfold run_with, feature_definitions_with.
  destruct (after_imports (fun _ =>
              record ← call_class "Entity" (Entity_new record_value) ;
              store_global "record" record ;;
              fitness_source ← call_class "FileSource" (FileSource_new fitness_source_value) ;
              store_global "fitness_source" fitness_source)) as (t & reg & ->).
  destruct (call_outcome w "Entity" (Entity_new record_value)
              (mkModState imported_globals t reg) eq_refl) as (t' & reg' & Hc).
  rewrite He in Hc. rewrite (bind_inr _ _ _ _ _ _ Hc).
  erewrite bind_inr by reflexivity. cbn [globals trace registry].
  assert (Hcls : globals (mkModState (<["record" := obj]> imported_globals) t' reg')
                   !! "FileSource" = Some (Imported "feast" "FileSource")).
  { cbn [globals]. rewrite lookup_insert_ne by discriminate. reflexivity. }
  destruct (call_outcome w "FileSource" (FileSource_new fitness_source_value) _ Hcls)
    as (t'' & reg'' & Hc').
  rewrite Hs in Hc'. rewrite (bind_inl _ _ _ _ _ _ Hc'). cbn [fst snd globals].
  split; [reflexivity |]. split; [reflexivity |].
  rewrite lookup_insert_ne by discriminate. reflexivity.
Qed.
End OpenFramework.

(** X2 where only the standard library is installed. *)
Lemma failed_import_stops_evaluation_witness :
  (forall reg, fst (fst (only_stdlib "datetime" (mkWorld ∅ 0 ∅) reg)) = inr tt) /\
  (forall reg, fst (fst (only_stdlib "feast" (mkWorld ∅ 0 ∅) reg))
               = inl (FileNotFoundError "feast")) /\
  fst (run_with only_stdlib (fun e => plain (EntityObj e))
                (fun s => plain (FileSourceObj s))
                (mkWorld ∅ 0 ∅) (mkRegistry ∅ [] ∅))
    = inl (FileNotFoundError "feast") /\
  globals (snd (run_with only_stdlib (fun e => plain (EntityObj e))
                         (fun s => plain (FileSourceObj s))
                         (mkWorld ∅ 0 ∅) (mkRegistry ∅ [] ∅)))
    = {[ "timedelta" := Imported "datetime" "timedelta" ]}.
Proof.
  split; [intros reg; reflexivity |]. split; [intros reg; reflexivity |].
  exact (failed_import_stops_evaluation only_stdlib (fun e => plain (EntityObj e))
           (fun s => plain (FileSourceObj s)) (mkWorld ∅ 0 ∅) (mkRegistry ∅ [] ∅)
           (FileNotFoundError "feast")
           (fun reg => eq_refl) (fun reg => eq_refl)).
Defined.

(** X3 with an [Entity] constructor that rejects its arguments. *)
Lemma entity_failure_stops_evaluation_witness :
  (forall reg, fst (fst (rejecting record_value (mkWorld ∅ 0 ∅) reg))
               = inl (TypeError "record")) /\
  fst (run_with (fun _ => plain tt) rejecting (fun s => plain (FileSourceObj s))
                (mkWorld ∅ 0 ∅) (mkRegistry ∅ [] ∅))
    = inl (TypeError "record") /\
  globals (snd (run_with (fun _ => plain tt) rejecting
                         (fun s => plain (FileSourceObj s))
                         (mkWorld ∅ 0 ∅) (mkRegistry ∅ [] ∅)))
    = imported_globals.
Proof.
  split; [intros reg; reflexivity |].
  exact (entity_failure_stops_evaluation (fun _ => plain tt) rejecting
           (fun s => plain (FileSourceObj s)) (mkWorld ∅ 0 ∅) (mkRegistry ∅ [] ∅)
           (fun mo reg => eq_refl) (TypeError "record") (fun reg => eq_refl)).
Defined.

(** X4 with a [FileSource] constructor that rejects its arguments. *)
Lemma source_failure_leaves_record_bound_witness :
  (forall reg, fst (fst (rejecting_source fitness_source_value (mkWorld ∅ 0 ∅) reg))
               = inl (TypeError "../../../data/full_data_cleaned.csv")) /\
  fst (run_with (fun _ => plain tt) (fun e => plain (EntityObj e)) rejecting_source
                (mkWorld ∅ 0 ∅) (mkRegistry ∅ [] ∅))
    = inl (TypeError "../../../data/full_data_cleaned.csv") /\
  globals (snd (run_with (fun _ => plain tt) (fun e => plain (EntityObj e))
                         rejecting_source (mkWorld ∅ 0 ∅) (mkRegistry ∅ [] ∅)))
    = <["record" := EntityObj record_value]> imported_globals /\
  globals (snd (run_with (fun _ => plain tt) (fun e => plain (EntityObj e))
                         rejecting_source (mkWorld ∅ 0 ∅) (mkRegistry ∅ [] ∅)))
    !! "fitness_source" = None.
Proof.
  split; [intros reg; reflexivity |].
  exact (source_failure_leaves_record_bound (fun _ => plain tt)
           (fun e => plain (EntityObj e)) rejecting_source
           (mkWorld ∅ 0 ∅) (mkRegistry ∅ [] ∅)
           (fun mo reg => eq_refl) (EntityObj record_value)
           (TypeError "../../../data/full_data_cleaned.csv")
           (fun reg => eq_refl) (fun reg => eq_refl)).
Defined.
